(** * MHEDA: the journal handler of [app/main.py], embedded and verified

    The development follows the script top to bottom: Python strings and
    the few [str] methods the script calls, the two static tables
    ([EMOTION_COLORS], [label_map]), the normaliser [clean_text], the
    card builder [emotion_card] and the body of the [if analyze_btn:]
    block, which threads the Streamlit session state and the widgets it
    draws.  Theorems come after all definitions. *)

From Stdlib Require Import NArith ZArith Ascii String.
From stdpp Require Import gmap strings list.

(** ** Python strings *)

(** A Python [str] is a sequence of Unicode code points. *)
Module PyStr.

Abbreviation pystr := (list N).

Definition byte_codes (s : string) : list N :=
  N_of_ascii <$> list_ascii_of_string s.

Definition cont (b : N) : N := N.land b 0x3F%N.

(** Literals of this file are UTF-8 text; [utf8_decode] reads them back
    as code points (one to four bytes per code point). *)
Fixpoint utf8_decode (bs : list N) : pystr :=
  match bs with
  | [] => []
  | b0 :: bs1 =>
    if (b0 <? 0x80)%N then b0 :: utf8_decode bs1
    else
      match bs1 with
      | [] => [b0]
      | b1 :: bs2 =>
        if (b0 <? 0xE0)%N then
          N.lor (N.shiftl (N.land b0 0x1F) 6) (cont b1) :: utf8_decode bs2
        else
          match bs2 with
          | [] => [b0; b1]
          | b2 :: bs3 =>
            if (b0 <? 0xF0)%N then
              N.lor (N.shiftl (N.land b0 0x0F) 12)
                    (N.lor (N.shiftl (cont b1) 6) (cont b2))
                :: utf8_decode bs3
            else
              match bs3 with
              | [] => [b0; b1; b2]
              | b3 :: bs4 =>
                N.lor (N.shiftl (N.land b0 0x07) 18)
                      (N.lor (N.shiftl (cont b1) 12)
                             (N.lor (N.shiftl (cont b2) 6) (cont b3)))
                  :: utf8_decode bs4
              end
          end
      end
  end.

(** [str "joy"] is the Python literal ['joy']. *)
Definition str (s : string) : pystr := utf8_decode (byte_codes s).
Global Arguments str : simpl never.

(** U+0020, the separator [clean_text] joins with. *)
Definition SPACE : N := 0x20%N.

Definition between (lo hi c : N) : bool := ((lo <=? c) && (c <=? hi))%N.

(** [a-z] and [A-Z] as the regular expression of [clean_text] spells
    them: code points U+0061..U+007A and U+0041..U+005A. *)
Definition is_az (c : N) : bool := between 0x61 0x7A c.
Definition is_AZ (c : N) : bool := between 0x41 0x5A c.

(** Whitespace as CPython decides it ([Py_UNICODE_ISSPACE]): the test
    behind [str.split()], [str.strip()] and the class [\s] of a [str]
    pattern. *)
Definition isspace (c : N) : bool :=
  between 0x09 0x0D c || between 0x1C 0x20 c
  || (c =? 0x85)%N || (c =? 0xA0)%N || (c =? 0x1680)%N
  || between 0x2000 0x200A c
  || (c =? 0x2028)%N || (c =? 0x2029)%N || (c =? 0x202F)%N
  || (c =? 0x205F)%N || (c =? 0x3000)%N.

(** [bool(s)]: a string is falsy exactly when it is empty. *)
Definition truthy (s : pystr) : bool :=
  match s with [] => false | _ :: _ => true end.

Fixpoint lstrip (s : pystr) : pystr :=
  match s with
  | [] => []
  | c :: rest => if isspace c then lstrip rest else s
  end.

(** [s.strip()] *)
Definition strip (s : pystr) : pystr :=
  reverse (lstrip (reverse (lstrip s))).

(** The scanner of [s.split()]: [word] is the token being collected.
    Whitespace closes a token; runs of whitespace produce nothing. *)
Fixpoint split_scan (word : pystr) (s : pystr) : list pystr :=
  match s with
  | [] => match word with [] => [] | _ :: _ => [word] end
  | c :: rest =>
    if isspace c then
      match word with
      | [] => split_scan [] rest
      | _ :: _ => word :: split_scan [] rest
      end
    else split_scan (word ++ [c]) rest
  end.

(** [s.split()] *)
Definition split (s : pystr) : list pystr := split_scan [] s.

(** [sep.join(words)] *)
Fixpoint join (sep : pystr) (words : list pystr) : pystr :=
  match words with
  | [] => []
  | [w] => w
  | w :: ws => w ++ sep ++ join sep ws
  end.

(** [re.sub(pattern, '', s)] for a pattern that is one character class:
    every character the class matches is deleted, the rest is copied. *)
Fixpoint re_sub_delete (class : N -> bool) (s : pystr) : pystr :=
  match s with
  | [] => []
  | c :: rest =>
    if class c then re_sub_delete class rest
    else c :: re_sub_delete class rest
  end.

End PyStr.
Import PyStr.

(** ** Text processing *)

Module TextProcessing.
Section clean_text.

(** [str.lower] is CPython's; the script only calls it. *)
Variable lower : pystr -> pystr.

(** [set(stopwords.words("english"))]: both arms of the [try] bind
    [stop_words] to the set of the corpus' word list. *)
Variable stop_words : gset pystr.

(** The class [[^a-zA-Z\s]]. *)
Definition not_letter_or_space (c : N) : bool :=
  negb (is_az c || is_AZ c || isspace c).

Definition clean_text (text : pystr) : pystr :=
  let text := lower text in
  let text := re_sub_delete not_letter_or_space text in
  let tokens := split text in
  let filtered := filter (λ word, word ∉ stop_words) tokens in
  join (str " ") filtered.

End clean_text.
End TextProcessing.

(** The Text Normalizer as the specification words it, one definition
    per step, to be compared with [TextProcessing.clean_text]. *)
Module Spec.
Section normalize.

Variable lower : pystr -> pystr.
Variable stop_words : gset pystr.

Definition is_ascii_letter (c : N) : bool := is_az c || is_AZ c.

(** "remove every character that is not an ASCII letter or whitespace" *)
Definition keep_letters_and_whitespace (s : pystr) : pystr :=
  filter (λ c, is_ascii_letter c || isspace c) s.

(** The pieces between consecutive whitespace characters, empty ones
    included: one more piece than there are whitespace characters. *)
Fixpoint fields (s : pystr) : list pystr :=
  match s with
  | [] => [[]]
  | c :: rest =>
    if isspace c then [] :: fields rest
    else
      match fields rest with
      | f :: fs => (c :: f) :: fs
      | [] => [[c]]
      end
  end.

(** "split on whitespace into tokens": the non-empty pieces. *)
Definition tokens (s : pystr) : list pystr :=
  filter (λ f, f ≠ []) (fields s).

(** "drop tokens present in a fixed English stop-word set" *)
Definition drop_stop_words (toks : list pystr) : list pystr :=
  filter (λ w, w ∉ stop_words) toks.

(** "rejoin surviving tokens with single spaces": a space before every
    token, the first space taken off. *)
Definition rejoin (toks : list pystr) : pystr :=
  drop 1 (concat ((λ w, SPACE :: w) <$> toks)).

Definition normalize (t : pystr) : pystr :=
  rejoin (drop_stop_words (tokens (keep_letters_and_whitespace (lower t)))).

End normalize.
End Spec.

(** ** Python values, exceptions and dictionaries *)

(** What [model.predict(...)[0]] can be: an integer class index or a
    string class name, depending on the labels the artifact was fitted on. *)
Inductive pyval :=
| PyInt (i : Z)
| PyStr (s : pystr).

#[global] Instance pyval_eq_dec : EqDecision pyval.
Proof. solve_decision. Defined.

Inductive exn :=
| KeyError (key : pyval)
| AttributeError (attribute : pystr)
| IndexError.

Inductive result (A : Type) :=
| Ok (a : A)
| Raise (e : exn).
Arguments Ok {A} a.
Arguments Raise {A} e.

(** [d[i]] on a dictionary with integer keys. *)
Definition getitem {V} (d : gmap Z V) (i : Z) : result V :=
  match d !! i with
  | Some v => Ok v
  | None => Raise (KeyError (PyInt i))
  end.

(** [d.get(key, default)] on a dictionary with string keys: a key that
    is not a string is absent. *)
Definition dict_get {V} (d : gmap pystr V) (key : pyval) (dflt : V) : V :=
  match key with
  | PyStr s => default dflt (d !! s)
  | PyInt _ => dflt
  end.

(** [xs[0]] *)
Definition first {A} (xs : list A) : result A :=
  match xs with
  | x :: _ => Ok x
  | [] => Raise IndexError
  end.

(** ** Emotion configuration *)

Definition EMOTION_COLORS : gmap pystr pystr :=
  list_to_map
    [ (str "joy", str "#FFD166"); (str "love", str "#EF476F");
      (str "surprise", str "#06D6A0"); (str "gratitude", str "#118AB2");
      (str "admiration", str "#073B4C"); (str "amusement", str "#FF9E6D");
      (str "anger", str "#FF6B6B"); (str "sadness", str "#6A67CE");
      (str "fear", str "#4ECDC4"); (str "neutral", str "#B8B8B8") ].

Definition label_items : list (Z * pystr) :=
  [ (0, str "admiration"); (1, str "amusement"); (2, str "anger");
    (3, str "annoyance"); (4, str "approval"); (5, str "caring");
    (6, str "confusion"); (7, str "curiosity"); (8, str "desire");
    (9, str "disappointment"); (10, str "disapproval"); (11, str "disgust");
    (12, str "embarrassment"); (13, str "excitement"); (14, str "fear");
    (15, str "gratitude"); (16, str "grief"); (17, str "joy");
    (18, str "love"); (19, str "nervousness"); (20, str "neutral");
    (21, str "optimism"); (22, str "pride"); (23, str "realization");
    (24, str "relief"); (25, str "remorse"); (26, str "sadness");
    (27, str "surprise") ]%Z.

Definition label_map : gmap Z pystr := list_to_map label_items.

(** The values of [label_map]: the 28 emotion names. *)
Definition label_values : list pystr := label_items.*2.

(** [v in label_map.values()] *)
Definition in_label_table (v : pyval) : Prop :=
  match v with
  | PyStr s => s ∈ label_values
  | PyInt _ => False
  end.

(** ** Session state and the page *)

(** One element of [st.session_state.history]: the dictionary with keys
    ["date"], ["entry"] and ["emotion"].  A date is its proleptic ordinal
    ([date.toordinal()]). *)
Record JournalEntry := {
  date : Z;
  entry : pystr;
  emotion : pyval
}.

(** [st.session_state]: [history = None] is ['history' not in
    st.session_state]. *)
Record session_state := {
  history : option (list JournalEntry)
}.

(** What [emotion_card] puts into its markup: the background colour and
    the heading; the rest of the markup is fixed text. *)
Record card := {
  background : pystr;
  heading : pystr
}.

Inductive widget :=
| st_warning (body : pystr)
| st_spinner (text : pystr)
| st_success (body : pystr)
| st_balloons
| st_markdown (c : card)
| st_expander (label : pystr) (subject : pyval)
| st_info (body : pystr)
| st_link_button (label url : pystr)
| st_history_charts (rows : list JournalEntry).

Module App.
Section script.

Variable lower upper : pystr -> pystr.
Variable stop_words : gset pystr.

(** The two artifacts of [load_resources].  A fitted scikit-learn
    vectorizer maps each document to one row and a fitted classifier
    each row to one prediction; [vectorizer] and [model] are those
    per-row maps. *)
Variable FeatureVector : Type.
Variable vectorizer : pystr -> FeatureVector.
Variable model : FeatureVector -> pyval.

(** What one run of the script does, in order: the widgets it draws
    and the calls it makes to the artifacts. *)
Inductive event :=
| Draw (w : widget)
| Transform (docs : list pystr)
| Predict (X : list FeatureVector).

Record world := {
  session : session_state;
  trace : list event
}.

(** A piece of the script: it reads and updates the world and either
    returns or raises. *)
Definition script (A : Type) : Type := world -> result A * world.

#[local] Instance script_ret : MRet script := λ A a w, (Ok a, w).

#[local] Instance script_bind : MBind script := λ A B k m w,
  match m w with
  | (Ok a, w') => k a w'
  | (Raise e, w') => (Raise e, w')
  end.

Definition lift {A} (r : result A) : script A := λ w, (r, w).

Definition emit (e : event) : script unit := λ w,
  (Ok (), {| session := session w; trace := trace w ++ [e] |}).

Definition get_session : script session_state := λ w, (Ok (session w), w).

Definition put_session (ss : session_state) : script unit := λ w,
  (Ok (), {| session := ss; trace := trace w |}).

(** [vectorizer.transform(docs)] *)
Definition transform (docs : list pystr) : script (list FeatureVector) :=
  emit (Transform docs);; mret (vectorizer <$> docs).

(** [model.predict(X)] *)
Definition predict (X : list FeatureVector) : script (list pyval) :=
  emit (Predict X);; mret (model <$> X).

Definition clean_text : pystr -> pystr :=
  TextProcessing.clean_text lower stop_words.

Definition emotion_card (emotion : pyval) : result card :=
  let color := dict_get EMOTION_COLORS emotion (str "#073B4C") in
  match emotion with
  | PyStr s => Ok {| background := color; heading := upper s |}
  | PyInt _ => Raise (AttributeError (str "upper"))
  end.

Definition TIPS : gmap pystr pystr :=
  list_to_map
    [ (str "sadness", str "🎧 Try listening to uplifting music - sometimes vibrations heal better than words");
      (str "anger", str "🥊 Do a 5-minute intense workout - channel that energy productively!");
      (str "fear", str "📝 Name your fear and challenge its probability - most fears never happen");
      (str "joy", str "🌟 Celebrate this moment! Text someone who amplifies your happiness");
      (str "neutral", str "🌱 Try something new - novelty sparks emotional growth");
      (str "grief", str "🕯️ Light a candle and honor your feelings - grief is love with nowhere to go");
      (str "disappointment", str "🌦️ Remember: This feeling is temporary like weather - brighter days are coming");
      (str "excitement", str "🎯 Channel this energy into a creative project!");
      (str "love", str "💌 Send a heartfelt message to someone you cherish") ].

(** The list of the crisis-resources test. *)
Definition crisis_emotions : list pyval :=
  PyStr <$> [str "sadness"; str "grief"; str "anger"; str "despair"].

(** Lines 130-133: the block under the spinner. *)
Definition infer (journal : pystr) : script pyval :=
  emit (Draw (st_spinner (str "🧠 Reading between the lines...")));;
  let cleaned := clean_text journal in
  vectorized ← transform [cleaned];
  predictions ← predict vectorized;
  prediction ← lift (first predictions);
  let emotion := prediction in
  mret emotion.

(** Lines 136-143: create the history on first use, then append. *)
Definition store (today : Z) (journal : pystr) (emotion : pyval)
  : script unit :=
  ss ← get_session;
  (match history ss with
   | None => put_session {| history := Some [] |}
   | Some _ => mret ()
   end);;
  ss ← get_session;
  put_session
    {| history :=
         (λ h, h ++ [{| date := today; entry := journal;
                        emotion := emotion |}]) <$> history ss |}.

(** Lines 125-168.  [analyze_btn] and [journal] are what the widgets
    returned in this run, [today] is [datetime.now().date()]. *)
Definition handler (analyze_btn : bool) (journal : pystr) (today : Z)
  : script unit :=
  if analyze_btn then
    if negb (truthy (strip journal)) then
      emit (Draw (st_warning (str "📣 Write something to analyze!")))
    else
      emotion ← infer journal;
      store today journal emotion;;
      emit (Draw (st_success (str "✅ Analysis complete!")));;
      emit (Draw st_balloons);;
      c ← lift (emotion_card emotion);
      emit (Draw (st_markdown c));;
      let tip :=
        dict_get TIPS emotion
          (str "💖 You're doing great just by checking in with yourself") in
      emit (Draw (st_expander (str "💡 Personalized Tip for ") emotion));;
      emit (Draw (st_info tip));;
      if bool_decide (emotion ∈ crisis_emotions) then
        emit (Draw (st_link_button (str "📞 Crisis Resources")
          (str "https://www.thelivelovelaughfoundation.org/find-help/helplines")))
      else mret ()
  else mret ().

(** Lines 171-221: the charts are drawn from a copy of the history
    ([pd.DataFrame(...)]); the session state is only read. *)
Definition history_section : script unit :=
  ss ← get_session;
  match history ss with
  | Some (e :: es) => emit (Draw (st_history_charts (e :: es)))
  | _ => mret ()
  end.

(** One run of the script, from the journal widget down. *)
Definition main (analyze_btn : bool) (journal : pystr) (today : Z)
  : script unit :=
  handler analyze_btn journal today;;
  history_section.

(** The world the next run starts from: Streamlit keeps the session
    state whether the run returned or raised. *)
Definition rerun (analyze_btn : bool) (journal : pystr) (today : Z)
    (w : world) : world :=
  (main analyze_btn journal today w).2.

(** A new session: nothing stored, nothing drawn. *)
Definition fresh : world :=
  {| session := {| history := None |}; trace := [] |}.

(** The worlds a session can be in. *)
Inductive reachable : world -> Prop :=
| reachable_fresh : reachable fresh
| reachable_rerun analyze_btn journal today w :
    reachable w -> reachable (rerun analyze_btn journal today w).

(** The entries stored so far. *)
Definition entries (w : world) : list JournalEntry :=
  default [] (history (session w)).

End script.
End App.

Arguments App.Draw {FeatureVector} w.
Arguments App.Transform {FeatureVector} docs.
Arguments App.Predict {FeatureVector} X.
Arguments App.session {FeatureVector} w.
Arguments App.trace {FeatureVector} w.
Arguments App.entries {FeatureVector} w.
Arguments App.fresh {FeatureVector}.

(** ** Concrete artifacts, to run the script *)

Definition ascii_lower_cp (c : N) : N :=
  if is_AZ c then (c + 32)%N else c.

(** [str.lower] on ASCII text. *)
Definition ascii_lower (s : pystr) : pystr := ascii_lower_cp <$> s.

Definition demo_stop_words : gset pystr :=
  list_to_set (str <$> ["the"; "and"; "is"; "am"; "so"; "i"; "a"])%string.

Definition ascii_upper_cp (c : N) : N :=
  if is_az c then (c - 32)%N else c.

(** [str.upper] on ASCII text. *)
Definition ascii_upper (s : pystr) : pystr := ascii_upper_cp <$> s.

(** A classifier fitted on class indices and one fitted on class names;
    the feature vector of a document is the document itself. *)
Definition index_model (_ : pystr) : pyval := PyInt 17.
Definition name_model (_ : pystr) : pyval := PyStr (str "joy").
Definition id_vectorizer (s : pystr) : pystr := s.

(** The script on ASCII text with the seven stop words above, for a
    given classifier. *)
Definition demo_handler (model : pystr -> pyval) :=
  App.handler ascii_lower ascii_upper demo_stop_words pystr id_vectorizer
    model.

Definition demo_rerun (model : pystr -> pyval) :=
  App.rerun ascii_lower ascii_upper demo_stop_words pystr id_vectorizer
    model.

Definition demo_reachable (model : pystr -> pyval) :=
  App.reachable ascii_lower ascii_upper demo_stop_words pystr id_vectorizer
    model.

(** The session before its first run. *)
Definition new_session : App.world pystr := App.fresh.

(** 1 and 2 January 2025, as ordinals. *)
Definition day1 : Z := 739252.
Definition day2 : Z := 739253.

(** ** Vocabulary of the statements *)

(** Empty or whitespace only. *)
Definition blank (s : pystr) : Prop := Forall (λ c, isspace c = true) s.

(** A lowercase letter [a]..[z] or the space U+0020. *)
Definition lowercase_or_space (c : N) : Prop := is_az c = true ∨ c = SPACE.

(** Two facts of [str.lower] the normaliser relies on: its result holds
    no [A]..[Z], and text made of [a]..[z] and spaces is left as it is. *)
Definition lower_leaves_no_AZ (lower : pystr -> pystr) : Prop :=
  ∀ s c, c ∈ lower s → is_AZ c = false.

Definition lower_keeps_lowercase (lower : pystr -> pystr) : Prop :=
  ∀ s, Forall lowercase_or_space s → lower s = s.

(** A token of the normaliser's output: not empty, letters [a]..[z] only. *)
Definition az_word (w : pystr) : Prop :=
  w ≠ [] ∧ Forall (λ c, is_az c = true) w.

(** The list [filtered] that [clean_text] joins. *)
Definition filtered (lower : pystr -> pystr) (stop_words : gset pystr)
    (text : pystr) : list pystr :=
  filter (λ word, word ∉ stop_words)
    (split (re_sub_delete TextProcessing.not_letter_or_space (lower text))).

(** ** The header animation *)

Module Lottie.
Section lottie.

(** A call into a library: it returned, or it raised.  The bare
    [except:] of [load_lottie] does not tell exceptions apart. *)
Inductive attempt (A : Type) :=
| Returned (a : A)
| Raised.
Arguments Returned {A} a.
Arguments Raised {A}.

(** The value [r.json()] returns, and [bool(value)]. *)
Variable json : Type.
Variable truthy_json : json -> bool.

(** What [load_lottie] reads of a response: [r.status_code] and
    [r.json()], which raises on a body that is not JSON. *)
Record response := {
  status_code : Z;
  json_body : attempt json
}.

(** [requests.get]: the network of this run. *)
Variable requests_get : pystr -> attempt response.

(** Lines 28-35.  [None] is Python's [None]. *)
Definition load_lottie (url : pystr) : option json :=
  match requests_get url with
  | Returned r =>
    if (status_code r =? 200)%Z then
      match json_body r with
      | Returned a => Some a
      | Raised => None
      end
    else None
  | Raised => None
  end.

Inductive header_widget :=
| st_lottie (animation : json) (height : Z) (key : pystr)
| st_image (url : pystr) (width : Z)
| st_title (body : pystr)
| st_markdown_text (body : pystr)
| st_caption (body : pystr).

(** Lines 94-104: the first column, then the three texts of the second.
    [if lottie_celebrate:] is false on [None] and on a falsy value. *)
Definition header (lottie_celebrate : option json) : list header_widget :=
  let col1 :=
    match lottie_celebrate with
    | Some animation =>
      if truthy_json animation then
        st_lottie animation 120 (str "header-animation")
      else
        st_image
          (str "https://cdn-icons-png.flaticon.com/512/1995/1995485.png") 100
    | None =>
      st_image
        (str "https://cdn-icons-png.flaticon.com/512/1995/1995485.png") 100
    end in
  [ col1;
    st_title (str "🧠 MHEDA");
    st_markdown_text (str "### Mental Health Emotion Detection Assistant");
    st_caption
      (str "Track your feelings • Understand yourself • Grow emotionally") ].

(** Line 38. *)
Definition lottie_celebrate : option json :=
  load_lottie (str "https://assets1.lottiefiles.com/packages/lf20_vyL7qy.json").

End lottie.
End Lottie.

Arguments Lottie.Returned {A} a.
Arguments Lottie.Raised {A}.
Arguments Lottie.st_image {json} url width.
Arguments Lottie.st_title {json} body.
Arguments Lottie.st_markdown_text {json} body.
Arguments Lottie.st_caption {json} body.

(** ** Whole sessions *)

Module Session.
Section session.

Variable lower upper : pystr -> pystr.
Variable stop_words : gset pystr.
Variable FeatureVector : Type.
Variable vectorizer : pystr -> FeatureVector.
Variable model : FeatureVector -> pyval.

(** What the user and the clock give to one run of the script: the
    state of the button, the text of the text area, the day. *)
Record submission := {
  sub_analyze_btn : bool;
  sub_journal : pystr;
  sub_today : Z
}.

(** The runs of a session, one after the other. *)
Definition reruns (subs : list submission) (w : App.world FeatureVector)
  : App.world FeatureVector :=
  foldl
    (λ w s,
       App.rerun lower upper stop_words FeatureVector vectorizer model
         (sub_analyze_btn s) (sub_journal s) (sub_today s) w)
    w subs.

(** The two tests of lines 125-126 that lead to the [else] branch. *)
Definition analysed (s : submission) : bool :=
  sub_analyze_btn s && truthy (strip (sub_journal s)).

(** The dictionary lines 139-143 append for a submission. *)
Definition entry_of (s : submission) : JournalEntry :=
  {| date := sub_today s;
     entry := sub_journal s;
     emotion :=
       model (vectorizer (App.clean_text lower stop_words (sub_journal s))) |}.

End session.
End Session.

(** A classifier that answers ['sadness']. *)
Definition sad_model (_ : pystr) : pyval := PyStr (str "sadness").

(** Two stop words that hold a character outside [a]..[z], as the
    corpus has them. *)
Definition contraction_stop_words : gset pystr :=
  demo_stop_words ∪ {[ str "don't"; str "The" ]}.

(** For the examples a JSON value is an object, given by its keys;
    the object without keys is falsy. *)
Definition truthy_keys (a : list pystr) : bool :=
  match a with [] => false | _ :: _ => true end.

(** A network that is down, one that answers 404, and one that answers
    200 with an animation. *)
Definition network_down (_ : pystr)
  : Lottie.attempt (Lottie.response (list pystr)) :=
  Lottie.Raised.

Definition network_404 (_ : pystr)
  : Lottie.attempt (Lottie.response (list pystr)) :=
  Lottie.Returned
    {| Lottie.status_code := 404;
       Lottie.json_body := Lottie.Returned [str "error"] |}.

Definition network_up (_ : pystr)
  : Lottie.attempt (Lottie.response (list pystr)) :=
  Lottie.Returned
    {| Lottie.status_code := 200;
       Lottie.json_body := Lottie.Returned [str "v"; str "layers"] |}.

(** * Theorems *)

(** ** Literals and a first run of the normaliser *)

Example str_joy : str "joy" = [106; 111; 121]%N.
Proof. reflexivity. Qed.

Example str_emoji : str "🎧é" = [0x1F3A7; 0xE9]%N.
Proof. reflexivity. Qed.

Example clean1 :
  TextProcessing.clean_text ascii_lower demo_stop_words
    (str "I am so happy today, everything is wonderful!")
  = str "happy today everything wonderful".
Proof. vm_compute. reflexivity. Qed.

(** ** Characters *)

Lemma between_true lo hi c : between lo hi c = true ↔ (lo ≤ c ∧ c ≤ hi)%N.
Proof. unfold between. rewrite andb_true_iff, !N.leb_le. done. Qed.

Lemma between_false lo hi c : between lo hi c = false ↔ (c < lo ∨ hi < c)%N.
Proof. unfold between. rewrite andb_false_iff, !N.leb_gt. done. Qed.

Lemma is_az_range c : is_az c = true ↔ (97 ≤ c ∧ c ≤ 122)%N.
Proof. apply between_true. Qed.

Lemma is_az_not_space c : is_az c = true → isspace c = false.
Proof.
  rewrite is_az_range. intros Hc. unfold isspace.
  rewrite !orb_false_iff, !between_false, !N.eqb_neq. lia.
Qed.

Lemma is_az_not_AZ c : is_az c = true → is_AZ c = false.
Proof. rewrite is_az_range. intros Hc. apply between_false. lia. Qed.

Lemma isspace_SPACE : isspace SPACE = true.
Proof. reflexivity. Qed.

Lemma lowercase_or_space_kept c :
  lowercase_or_space c → TextProcessing.not_letter_or_space c = false.
Proof.
  unfold TextProcessing.not_letter_or_space.
  intros [Hc | ->]; [by rewrite Hc | done].
Qed.

(** ** [split], [join] and [re.sub] *)

Lemma split_scan_fields w s :
  split_scan w s =
  filter (λ f, f ≠ [])
    (match Spec.fields s with f :: fs => (w ++ f) :: fs | [] => [w] end).
Proof.
  revert w. induction s as [|c rest IH]; intros w; simpl.
  - rewrite app_nil_r. destruct w; done.
  - destruct (isspace c).
    + rewrite app_nil_r, (IH []).
      assert (filter (λ f : pystr, f ≠ [])
                (match Spec.fields rest with
                 | f :: fs => ([] ++ f) :: fs
                 | [] => [[]]
                 end) = filter (λ f : pystr, f ≠ []) (Spec.fields rest)) as ->.
      { destruct (Spec.fields rest); done. }
      destruct w; [done|]. by rewrite filter_cons_True.
    + rewrite IH. destruct (Spec.fields rest) as [|f fs].
      * done.
      * by rewrite <- app_assoc.
Qed.

Lemma split_tokens s : split s = Spec.tokens s.
Proof.
  unfold split, Spec.tokens. rewrite split_scan_fields.
  destruct (Spec.fields s) eqn:E; [|done].
  destruct s as [|c rest]; simpl in E; [done|].
  destruct (isspace c); [done|]. destruct (Spec.fields rest); done.
Qed.

Lemma re_sub_delete_keep s :
  re_sub_delete TextProcessing.not_letter_or_space s
  = Spec.keep_letters_and_whitespace s.
Proof.
  unfold Spec.keep_letters_and_whitespace.
  induction s as [|c rest IH]; [done|].
  rewrite filter_cons, <- IH. simpl.
  unfold TextProcessing.not_letter_or_space at 1.
  destruct (decide _) as [H | H].
  - apply Is_true_true in H. unfold Spec.is_ascii_letter in H. by rewrite H.
  - apply Is_true_false in H. unfold Spec.is_ascii_letter in H. by rewrite H.
Qed.

Lemma spaced_concat w ws :
  concat ((λ w, SPACE :: w) <$> (w :: ws)) = SPACE :: join (str " ") (w :: ws).
Proof.
  revert w. induction ws as [|w' ws IH]; intros w.
  - simpl. by rewrite app_nil_r.
  - change (SPACE :: w ++ concat ((λ w, SPACE :: w) <$> (w' :: ws))
            = SPACE :: w ++ str " " ++ join (str " ") (w' :: ws)).
    by rewrite IH.
Qed.

Lemma join_rejoin ws : join (str " ") ws = Spec.rejoin ws.
Proof.
  unfold Spec.rejoin. destruct ws as [|w ws]; [done|].
  by rewrite spaced_concat.
Qed.

Lemma split_scan_words w s :
  Forall (λ c, is_az c = true) w →
  Forall (λ c, isspace c = false → is_az c = true) s →
  Forall az_word (split_scan w s).
Proof.
  revert w. induction s as [|c rest IH]; intros w Hw Hs; simpl.
  - destruct w; [constructor|]. constructor; [by split | constructor].
  - apply Forall_cons in Hs as [Hc Hrest].
    destruct (isspace c) eqn:Ec.
    + destruct w as [|x w'].
      * by apply IH.
      * constructor; [by split|]. by apply IH.
    + apply IH; [|done]. apply Forall_app. split; [done|].
      constructor; [by apply Hc | constructor].
Qed.

Lemma re_sub_delete_chars s :
  Forall (λ c, is_AZ c = false) s →
  Forall (λ c, isspace c = false → is_az c = true)
    (re_sub_delete TextProcessing.not_letter_or_space s).
Proof.
  induction 1 as [|c rest Hc _ IH]; simpl; [constructor|].
  unfold TextProcessing.not_letter_or_space at 1.
  destruct (is_az c) eqn:Eaz; simpl.
  - by constructor.
  - rewrite Hc. simpl. destruct (isspace c) eqn:Esp; simpl; [|done].
    constructor; [|done]. congruence.
Qed.

Lemma re_sub_delete_id s :
  Forall lowercase_or_space s →
  re_sub_delete TextProcessing.not_letter_or_space s = s.
Proof.
  induction 1 as [|c rest Hc _ IH]; simpl; [done|].
  by rewrite (lowercase_or_space_kept c Hc), IH.
Qed.

Lemma filtered_words lower stop_words t :
  lower_leaves_no_AZ lower →
  Forall az_word (filtered lower stop_words t).
Proof.
  intros Hlower. unfold filtered. apply Forall_forall. intros w Hw.
  apply list_elem_of_filter in Hw as [_ Hw]. revert w Hw. apply Forall_forall.
  apply split_scan_words; [constructor|].
  apply re_sub_delete_chars, Forall_forall. intros c. apply Hlower.
Qed.

Lemma filtered_not_stop_words lower stop_words t :
  Forall (λ w, w ∉ stop_words) (filtered lower stop_words t).
Proof.
  apply Forall_forall. intros w Hw.
  by apply list_elem_of_filter in Hw as [? _].
Qed.

Lemma filter_all {A} (P : A → Prop) `{!∀ x, Decision (P x)} (l : list A) :
  Forall P l → filter P l = l.
Proof.
  induction 1 as [|x l Hx _ IH]; [done|].
  by rewrite filter_cons_True, IH.
Qed.

Lemma az_word_no_SPACE w : az_word w → SPACE ∉ w.
Proof.
  intros [_ Hw] Hin. by apply (proj1 (Forall_forall _ _) Hw) in Hin.
Qed.

Lemma join_chars ws :
  Forall az_word ws → Forall lowercase_or_space (join (str " ") ws).
Proof.
  induction 1 as [|w ws [_ Hw] Hws IH]; [constructor|].
  assert (Forall lowercase_or_space w) as Hw'.
  { eapply Forall_impl; [exact Hw|]. intros c Hc. by left. }
  destruct ws as [|w2 ws]; [done|].
  change (Forall lowercase_or_space (w ++ str " " ++ join (str " ") (w2 :: ws))).
  rewrite !Forall_app. repeat split; [done| |done].
  constructor; [by right | constructor].
Qed.

Lemma join_head ws :
  Forall az_word ws → head (join (str " ") ws) ≠ Some SPACE.
Proof.
  destruct 1 as [|w ws [Hne Hw] Hws]; [done|].
  assert (head w ≠ Some SPACE) as Hh.
  { destruct w as [|c w]; [done|]. apply Forall_cons in Hw as [Hc _].
    simpl. intros [= ->]. done. }
  destruct ws as [|w2 ws]; [done|].
  change (head (w ++ str " " ++ join (str " ") (w2 :: ws)) ≠ Some SPACE).
  rewrite head_app. destruct w; done.
Qed.

Lemma join_last ws :
  Forall az_word ws → last (join (str " ") ws) ≠ Some SPACE.
Proof.
  induction 1 as [|w ws Hw Hws IH]; [done|].
  assert (last w ≠ Some SPACE) as Hl.
  { intros Hl. apply last_Some_elem_of in Hl. by apply az_word_no_SPACE in Hl. }
  destruct ws as [|w2 ws]; [done|].
  change (last (w ++ str " " ++ join (str " ") (w2 :: ws)) ≠ Some SPACE).
  rewrite !last_app.
  destruct (last (join (str " ") (w2 :: ws))) as [y|] eqn:E; [done|].
  apply last_None in E.
  apply Forall_cons in Hws as [[Hne _] _].
  destruct w2; [done|]. destruct ws; simpl in E; done.
Qed.

Lemma join_no_double_space ws a b :
  Forall az_word ws → join (str " ") ws ≠ a ++ SPACE :: SPACE :: b.
Proof.
  intros Hws. revert a. induction Hws as [|w ws Hw Hws IH]; intros a E.
  { by destruct a. }
  destruct ws as [|w2 ws].
  { simpl in E. apply (az_word_no_SPACE w Hw). rewrite E.
    apply elem_of_app. right. left. }
  change (w ++ SPACE :: join (str " ") (w2 :: ws) = a ++ SPACE :: SPACE :: b)
    in E.
  pose proof (join_head _ Hws) as Hhead.
  set (J := join (str " ") (w2 :: ws)) in *. clearbody J.
  apply app_eq_inv in E as [(k & Hwk & Hk) | (k & Hak & Hk)].
  - destruct k as [|x k].
    + rewrite app_nil_l in Hk. injection Hk as Hj. by rewrite <- Hj in Hhead.
    + rewrite <- app_comm_cons in Hk. injection Hk as Hx _. subst x w.
      apply (az_word_no_SPACE _ Hw), elem_of_app. right. left.
  - destruct k as [|x k].
    + rewrite app_nil_l in Hk. injection Hk as Hj. by rewrite Hj in Hhead.
    + rewrite <- app_comm_cons in Hk. injection Hk as _ Hj. by apply IH in Hj.
Qed.

Lemma split_scan_app w w' s :
  Forall (λ c, isspace c = false) w' →
  split_scan w (w' ++ s) = split_scan (w ++ w') s.
Proof.
  intros Hw'. revert w. induction Hw' as [|c w' Hc _ IH]; intros w.
  - by rewrite app_nil_r.
  - simpl. rewrite Hc, IH. by rewrite <- app_assoc.
Qed.

Lemma split_join ws : Forall az_word ws → split (join (str " ") ws) = ws.
Proof.
  unfold split. induction 1 as [|w ws [Hne Hw] Hws IH]; [done|].
  assert (Forall (λ c, isspace c = false) w) as Hsp.
  { eapply Forall_impl; [exact Hw|]. apply is_az_not_space. }
  destruct ws as [|w2 ws].
  - simpl. rewrite <- (app_nil_r w) at 1.
    rewrite split_scan_app, app_nil_l by done. simpl. by destruct w.
  - change (split_scan [] (w ++ SPACE :: join (str " ") (w2 :: ws))
            = w :: w2 :: ws).
    set (J := join (str " ") (w2 :: ws)) in *. clearbody J.
    rewrite split_scan_app, app_nil_l by done.
    change (split_scan w (SPACE :: J))
      with (match w with
            | [] => split_scan [] J
            | _ :: _ => w :: split_scan [] J
            end).
    rewrite IH. by destruct w.
Qed.

Lemma clean_text_filtered lower stop_words t :
  TextProcessing.clean_text lower stop_words t
  = join (str " ") (filtered lower stop_words t).
Proof. reflexivity. Qed.

(** ** [str.lower] on ASCII text has the two facts *)

Lemma ascii_lower_leaves_no_AZ : lower_leaves_no_AZ ascii_lower.
Proof.
  intros s c Hc. apply list_elem_of_fmap in Hc as (x & -> & _).
  unfold ascii_lower_cp. destruct (is_AZ x) eqn:E; [|done].
  apply between_true in E. apply between_false. lia.
Qed.

Lemma ascii_lower_keeps_lowercase : lower_keeps_lowercase ascii_lower.
Proof.
  intros s. induction 1 as [|c s Hc _ IH]; [done|].
  unfold ascii_lower in *. rewrite fmap_cons, IH. f_equal.
  unfold ascii_lower_cp. destruct Hc as [Hc | ->]; [|done].
  by rewrite (is_az_not_AZ c Hc).
Qed.

(** ** The normaliser *)

(** C2: [clean_text] computes exactly the five steps of the
    specification's Text Normalizer: lowercase, keep only ASCII letters
    and whitespace, split on whitespace, drop stop words, rejoin with
    single spaces. *)
Theorem clean_text_is_normalize lower stop_words t :
  TextProcessing.clean_text lower stop_words t
  = Spec.normalize lower stop_words t.
Proof.
  unfold TextProcessing.clean_text, Spec.normalize, Spec.drop_stop_words.
  by rewrite re_sub_delete_keep, split_tokens, join_rejoin.
Qed.

(** C3: the output of [clean_text] holds only lowercase letters and
    spaces, it neither starts nor ends with a space nor holds two spaces
    in a row, and none of its tokens is a stop word. *)
Theorem clean_text_output lower stop_words t :
  lower_leaves_no_AZ lower →
  let out := TextProcessing.clean_text lower stop_words t in
  Forall lowercase_or_space out
  ∧ head out ≠ Some SPACE
  ∧ last out ≠ Some SPACE
  ∧ (∀ a b, out ≠ a ++ SPACE :: SPACE :: b)
  ∧ (∀ w, w ∈ stop_words → w ∉ split out).
Proof.
  intros Hlower out. subst out. rewrite clean_text_filtered.
  pose proof (filtered_words lower stop_words t Hlower) as Hws.
  split; [by apply join_chars|].
  split; [by apply join_head|].
  split; [by apply join_last|].
  split; [intros a b; by apply join_no_double_space|].
  intros w Hw. rewrite split_join by done. intros Hin.
  pose proof (filtered_not_stop_words lower stop_words t) as Hns.
  by apply (proj1 (Forall_forall _ _) Hns) in Hin.
Qed.

Lemma clean_text_output_witness :
  lower_leaves_no_AZ ascii_lower
  ∧ let out :=
      TextProcessing.clean_text ascii_lower demo_stop_words
        (str "I am so HAPPY today, everything is  wonderful 4 me!") in
    Forall lowercase_or_space out
    ∧ head out ≠ Some SPACE
    ∧ last out ≠ Some SPACE
    ∧ (∀ a b, out ≠ a ++ SPACE :: SPACE :: b)
    ∧ (∀ w, w ∈ demo_stop_words → w ∉ split out).
Proof.
  split; [exact ascii_lower_leaves_no_AZ|].
  exact (clean_text_output ascii_lower demo_stop_words _
           ascii_lower_leaves_no_AZ).
Defined.

(** C10: [clean_text] is idempotent. *)
Theorem clean_text_idempotent lower stop_words t :
  lower_leaves_no_AZ lower →
  lower_keeps_lowercase lower →
  TextProcessing.clean_text lower stop_words
    (TextProcessing.clean_text lower stop_words t)
  = TextProcessing.clean_text lower stop_words t.
Proof.
  intros Hno Hkeep.
  pose proof (filtered_words lower stop_words t Hno) as Hws.
  pose proof (join_chars _ Hws) as Hchars.
  rewrite (clean_text_filtered lower stop_words t).
  unfold TextProcessing.clean_text.
  rewrite (Hkeep _ Hchars), (re_sub_delete_id _ Hchars), (split_join _ Hws).
  by rewrite (filter_all _ _ (filtered_not_stop_words lower stop_words t)).
Qed.

Lemma clean_text_idempotent_witness :
  lower_leaves_no_AZ ascii_lower
  ∧ lower_keeps_lowercase ascii_lower
  ∧ TextProcessing.clean_text ascii_lower demo_stop_words
      (TextProcessing.clean_text ascii_lower demo_stop_words
         (str "The cat, and the DOG: is it 2 late?"))
    = TextProcessing.clean_text ascii_lower demo_stop_words
        (str "The cat, and the DOG: is it 2 late?").
Proof.
  split; [exact ascii_lower_leaves_no_AZ|].
  split; [exact ascii_lower_keeps_lowercase|].
  exact (clean_text_idempotent ascii_lower demo_stop_words _
           ascii_lower_leaves_no_AZ ascii_lower_keeps_lowercase).
Defined.

(** ** The label table *)

Example label_map_0 : getitem label_map 0 = Ok (str "admiration").
Proof. vm_compute. reflexivity. Qed.

Example label_map_27 : getitem label_map 27 = Ok (str "surprise").
Proof. vm_compute. reflexivity. Qed.

Lemma label_map_keys i : i ∈ label_items.*1 ↔ (0 ≤ i ≤ 27)%Z.
Proof.
  assert (label_items.*1 = Z.of_nat <$> seq 0 28) as -> by (vm_compute; reflexivity).
  rewrite list_elem_of_fmap. split.
  - intros (n & -> & Hn). apply elem_of_seq in Hn. lia.
  - intros Hi. exists (Z.to_nat i). split; [lia|]. apply elem_of_seq. lia.
Qed.

(** C4: subscripting [label_map] with an integer of [0,27] returns an
    emotion name; with any other integer it raises instead of returning
    a value. *)
Theorem label_map_lookup (i : Z) :
  ((0 ≤ i ≤ 27)%Z → ∃ name, getitem label_map i = Ok name)
  ∧ (¬ (0 ≤ i ≤ 27)%Z → getitem label_map i = Raise (KeyError (PyInt i))).
Proof.
  unfold getitem, label_map. split; intros Hi.
  - apply label_map_keys in Hi.
    apply list_elem_of_fmap in Hi as ([k name] & -> & Hin).
    exists name. change ((k, name).1) with k.
    assert (NoDup label_items.*1) as Hnodup.
    { apply (bool_decide_unpack _). vm_compute. exact I. }
    by rewrite (elem_of_list_to_map_1 label_items k name Hnodup Hin).
  - rewrite <- label_map_keys in Hi.
    by rewrite (not_elem_of_list_to_map_1 _ _ Hi).
Qed.

(** C9: ["despair"] is in the list of the crisis-resources test, but it
    is neither a value of [label_map] nor a key of [EMOTION_COLORS]. *)
Theorem despair_only_in_crisis_test :
  PyStr (str "despair") ∈ App.crisis_emotions
  ∧ (∀ i, label_map !! i ≠ Some (str "despair"))
  ∧ EMOTION_COLORS !! str "despair" = None.
Proof.
  split; [|split].
  - apply (bool_decide_unpack _). vm_compute. exact I.
  - intros i Hi. apply elem_of_list_to_map_2 in Hi.
    apply (list_elem_of_fmap_2 snd) in Hi. revert Hi.
    change (str "despair" ∉ label_values).
    apply (bool_decide_unpack _). vm_compute. exact I.
  - vm_compute. reflexivity.
Qed.

(** ** [strip] *)

Lemma lstrip_blank s : blank s → lstrip s = [].
Proof. induction 1 as [|c s Hc _ IH]; simpl; [done|]. by rewrite Hc. Qed.

Lemma lstrip_not_blank s : ¬ blank s → ¬ blank (lstrip s).
Proof.
  induction s as [|c s IH]; intros Hs; simpl; [done|].
  destruct (isspace c) eqn:Ec; [|done].
  apply IH. intros Hb. apply Hs. by constructor.
Qed.

Lemma strip_blank s : blank s → truthy (strip s) = false.
Proof. intros Hs. unfold strip. by rewrite (lstrip_blank s Hs). Qed.

Lemma strip_not_blank s : ¬ blank s → truthy (strip s) = true.
Proof.
  intros Hs. unfold strip.
  assert (¬ blank (lstrip (reverse (lstrip s)))) as Hb.
  { apply lstrip_not_blank. unfold blank. rewrite Forall_reverse.
    by apply lstrip_not_blank. }
  destruct (lstrip (reverse (lstrip s))) as [|c r] eqn:E.
  - destruct Hb. constructor.
  - rewrite reverse_cons. by destruct (reverse r).
Qed.

(** ** The script, run by run *)

Section script_facts.

Context (lower upper : pystr → pystr) (stop_words : gset pystr).
Context (FeatureVector : Type).
Context (vectorizer : pystr → FeatureVector).
Context (model : FeatureVector → pyval).

Abbreviation world := (App.world FeatureVector).
Abbreviation script := (App.script FeatureVector).
Abbreviation clean_text := (App.clean_text lower stop_words).
Abbreviation infer :=
  (App.infer lower stop_words FeatureVector vectorizer model).
Abbreviation store := (App.store FeatureVector).
Abbreviation handler :=
  (App.handler lower upper stop_words FeatureVector vectorizer model).
Abbreviation history_section := (App.history_section FeatureVector).
Abbreviation main :=
  (App.main lower upper stop_words FeatureVector vectorizer model).
Abbreviation rerun :=
  (App.rerun lower upper stop_words FeatureVector vectorizer model).
Abbreviation reachable :=
  (App.reachable lower upper stop_words FeatureVector vectorizer model).

(** The three events of the block under the spinner. *)
Abbreviation inference journal :=
  [ App.Draw (st_spinner (str "🧠 Reading between the lines..."));
    App.Transform [clean_text journal];
    App.Predict [vectorizer (clean_text journal)] ].

Abbreviation recorded today journal :=
  {| date := today; entry := journal;
     emotion := model (vectorizer (clean_text journal)) |}.

Lemma infer_run journal (w : world) :
  infer journal w
  = (Ok (model (vectorizer (clean_text journal))),
     {| App.session := App.session w;
        App.trace := App.trace w ++ inference journal |}).
Proof.
  unfold App.infer, App.transform, App.predict, App.emit, App.lift.
  unfold mbind, mret, App.script_bind, App.script_ret.
  cbn [App.session App.trace fmap list_fmap first].
  by rewrite <- !app_assoc.
Qed.

Lemma store_run today journal emotion (w : world) :
  store today journal emotion w
  = (Ok (),
     {| App.session :=
          {| history :=
               Some (App.entries w
                     ++ [{| date := today; entry := journal;
                            emotion := emotion |}]) |};
        App.trace := App.trace w |}).
Proof.
  unfold App.store, App.get_session, App.put_session, App.entries.
  unfold mbind, mret, App.script_bind, App.script_ret.
  destruct w as [[[h|]] tr]; reflexivity.
Qed.

Lemma handler_idle journal today (w : world) :
  handler false journal today w = (Ok (), w).
Proof. reflexivity. Qed.

Lemma handler_blank journal today (w : world) :
  blank journal →
  handler true journal today w
  = (Ok (),
     {| App.session := App.session w;
        App.trace :=
          App.trace w
          ++ [App.Draw (st_warning (str "📣 Write something to analyze!"))]
     |}).
Proof.
  intros Hb. unfold App.handler. by rewrite (strip_blank _ Hb).
Qed.

(** An analysis, event by event: the entry is stored before anything
    of the result is drawn, and [emotion_card] decides how the run ends. *)
Lemma handler_analysis journal today (w : world) :
  ¬ blank journal →
  handler true journal today w
  = let emotion := model (vectorizer (clean_text journal)) in
    let w1 :=
      {| App.session :=
           {| history := Some (App.entries w ++ [recorded today journal]) |};
         App.trace :=
           App.trace w ++ inference journal
           ++ [App.Draw (st_success (str "✅ Analysis complete!"));
               App.Draw st_balloons] |} in
    match App.emotion_card upper emotion with
    | Raise e => (Raise e, w1)
    | Ok c =>
      (Ok (),
       {| App.session := App.session w1;
          App.trace :=
            App.trace w1
            ++ [App.Draw (st_markdown c);
                App.Draw (st_expander (str "💡 Personalized Tip for ") emotion);
                App.Draw (st_info
                  (dict_get App.TIPS emotion
                     (str "💖 You're doing great just by checking in with yourself")))]
            ++ (if bool_decide (emotion ∈ App.crisis_emotions) then
                  [App.Draw (st_link_button (str "📞 Crisis Resources")
                     (str "https://www.thelivelovelaughfoundation.org/find-help/helplines"))]
                else []) |})
    end.
Proof.
  intros Hb. unfold App.handler. rewrite (strip_not_blank _ Hb).
  cbn [negb]. unfold mbind at 1. unfold App.script_bind at 1.
  rewrite infer_run.
  unfold mbind at 1. unfold App.script_bind at 1.
  rewrite store_run.
  unfold mbind, mret, App.script_bind, App.script_ret, App.emit, App.lift.
  unfold App.entries. cbv zeta.
  destruct (App.emotion_card upper (model (vectorizer (clean_text journal))))
    as [c|e].
  - destruct (bool_decide _); cbn [App.session App.trace];
      rewrite <- !app_assoc; reflexivity.
  - cbn [App.session App.trace]. rewrite <- !app_assoc. reflexivity.
Qed.

(** The history section only draws. *)
Lemma history_section_run (w : world) :
  ∃ draws,
    history_section w
    = (Ok (),
       {| App.session := App.session w;
          App.trace := App.trace w ++ (App.Draw <$> draws) |}).
Proof.
  unfold App.history_section, App.get_session, App.emit.
  unfold mbind, mret, App.script_bind, App.script_ret.
  destruct w as [[[[|e es]|]] tr]; cbn [App.session App.trace history].
  - exists []. by rewrite app_nil_r.
  - by exists [st_history_charts (e :: es)].
  - exists []. by rewrite app_nil_r.
Qed.

Lemma rerun_session analyze_btn journal today (w : world) :
  App.session (rerun analyze_btn journal today w)
  = App.session (handler analyze_btn journal today w).2.
Proof.
  unfold App.rerun, App.main. unfold mbind at 1. unfold App.script_bind at 1.
  destruct (handler analyze_btn journal today w) as [[[]|e] w']; [|done].
  by destruct (history_section_run w') as [draws ->].
Qed.

Lemma rerun_trace analyze_btn journal today (w : world) :
  ∃ draws,
    App.trace (rerun analyze_btn journal today w)
    = App.trace (handler analyze_btn journal today w).2
      ++ (App.Draw <$> draws).
Proof.
  unfold App.rerun, App.main. unfold mbind at 1. unfold App.script_bind at 1.
  destruct (handler analyze_btn journal today w) as [[[]|e] w'].
  - destruct (history_section_run w') as [draws ->]. by exists draws.
  - exists []. by rewrite app_nil_r.
Qed.

Lemma handler_analysis_session journal today (w : world) :
  ¬ blank journal →
  App.session (handler true journal today w).2
  = {| history := Some (App.entries w ++ [recorded today journal]) |}.
Proof.
  intros Hb. rewrite (handler_analysis _ _ _ Hb). cbv zeta.
  by destruct (App.emotion_card upper _).
Qed.

Lemma rerun_analysis_entries journal today (w : world) :
  ¬ blank journal →
  App.entries (rerun true journal today w)
  = App.entries w ++ [recorded today journal].
Proof.
  intros Hb. unfold App.entries at 1.
  by rewrite rerun_session, (handler_analysis_session _ _ _ Hb).
Qed.

Lemma rerun_blank_session journal today (w : world) :
  blank journal →
  App.session (rerun true journal today w) = App.session w.
Proof.
  intros Hb. by rewrite rerun_session, (handler_blank _ _ _ Hb).
Qed.

Lemma rerun_idle_session journal today (w : world) :
  App.session (rerun false journal today w) = App.session w.
Proof. by rewrite rerun_session. Qed.

(** Whatever the run, the entries stored before it are still there, in
    place, and at most one entry follows them. *)
Lemma rerun_entries analyze_btn journal today (w : world) :
  App.entries (rerun analyze_btn journal today w) = App.entries w
  ∨ App.entries (rerun analyze_btn journal today w)
    = App.entries w ++ [recorded today journal].
Proof.
  destruct analyze_btn.
  - destruct (decide (Forall (λ c, isspace c = true) journal)) as [Hb | Hb].
    + left. unfold App.entries. by rewrite rerun_blank_session.
    + right. by apply rerun_analysis_entries.
  - left. unfold App.entries. by rewrite rerun_idle_session.
Qed.

(** ** The claims about the handler *)

(** C1 (amended): on every submission whose text is not blank the
    handler calls the vectorizer once on the cleaned text and the
    classifier once on that single row, and takes the one prediction, as
    it is, for the emotion: that value is stored in the history, and the
    card that is drawn is built from it.  [label_map] takes no part. *)
Theorem prediction_is_the_label journal today (w : world) :
  ¬ blank journal →
  let prediction := model (vectorizer (clean_text journal)) in
  let w' := (handler true journal today w).2 in
  (∃ draws,
     App.trace w' = App.trace w ++ inference journal ++ (App.Draw <$> draws))
  ∧ App.entries w'
    = App.entries w
      ++ [{| date := today; entry := journal; emotion := prediction |}]
  ∧ (∀ c, App.emotion_card upper prediction = Ok c →
          App.Draw (st_markdown c) ∈ App.trace w').
Proof.
  intros Hb prediction w'. subst w'.
  split; [|split].
  - rewrite (handler_analysis _ _ _ Hb). cbv zeta. fold prediction.
    destruct (App.emotion_card upper prediction) as [c|e];
      cbn [snd App.trace App.session].
    + destruct (bool_decide (prediction ∈ App.crisis_emotions)).
      * eexists [_; _; _; _; _; _]. rewrite <- !app_assoc. reflexivity.
      * eexists [_; _; _; _; _]. rewrite <- !app_assoc. reflexivity.
    + by exists [st_success (str "✅ Analysis complete!"); st_balloons].
  - unfold App.entries at 1. by rewrite (handler_analysis_session _ _ _ Hb).
  - intros c Hc. rewrite (handler_analysis _ _ _ Hb). cbv zeta.
    fold prediction. rewrite Hc. cbn [snd App.trace App.session].
    apply elem_of_app. right. apply elem_of_app. left. constructor.
Qed.

(** C5 (amended): every entry of the history holds, as its emotion, the
    classifier's prediction for the cleaned text of that entry; so the
    emotions stored are values of the label table whenever the
    classifier emits only such values. *)
Theorem history_holds_predictions (w : world) :
  reachable w →
  Forall (λ e, emotion e = model (vectorizer (clean_text (entry e))))
    (App.entries w)
  ∧ ((∀ x, in_label_table (model x)) →
     Forall (λ e, in_label_table (emotion e)) (App.entries w)).
Proof.
  intros Hw.
  assert (Forall (λ e, emotion e = model (vectorizer (clean_text (entry e))))
            (App.entries w)) as Hall.
  { induction Hw as [|analyze_btn journal today w Hw IH]; [constructor|].
    destruct (rerun_entries analyze_btn journal today w) as [-> | ->];
      [done|].
    apply Forall_app. split; [done|]. by repeat constructor. }
  split; [done|]. intros Hmodel.
  eapply Forall_impl; [exact Hall|]. intros e ->. apply Hmodel.
Qed.

(** C6: with the two artifacts fixed, the label inferred for a text is
    the same in every run: it depends neither on the session nor on what
    was drawn before nor on the day. *)
Theorem inference_is_deterministic journal today1 today2 (w1 w2 : world) :
  (infer journal w1).1 = (infer journal w2).1
  ∧ (infer journal w1).1 = Ok (model (vectorizer (clean_text journal)))
  ∧ (¬ blank journal →
     emotion <$> last (App.entries (rerun true journal today1 w1))
     = emotion <$> last (App.entries (rerun true journal today2 w2))).
Proof.
  split; [by rewrite !infer_run|]. split; [by rewrite infer_run|].
  intros Hb. rewrite !rerun_analysis_entries by done.
  by rewrite !last_snoc.
Qed.

(** C7: the block under the spinner never raises, so a text that
    cleans to the empty string still gets a label and an entry; a text
    that is empty or whitespace only gets the warning instead: no call
    to the artifacts, no entry. *)
Theorem blank_input_is_guarded journal today (w : world) :
  (∃ w', infer journal w
         = (Ok (model (vectorizer (clean_text journal))), w'))
  ∧ (¬ blank journal → clean_text journal = [] →
     App.entries (rerun true journal today w)
     = App.entries w
       ++ [{| date := today; entry := journal;
              emotion := model (vectorizer []) |}])
  ∧ (blank journal →
     handler true journal today w
     = (Ok (),
        {| App.session := App.session w;
           App.trace :=
             App.trace w
             ++ [App.Draw (st_warning (str "📣 Write something to analyze!"))]
        |})
     ∧ App.entries (rerun true journal today w) = App.entries w).
Proof.
  split; [|split].
  - rewrite infer_run. by eexists.
  - intros Hb Hclean. rewrite (rerun_analysis_entries _ _ _ Hb).
    by rewrite Hclean.
  - intros Hb. split; [by apply handler_blank|].
    unfold App.entries. by rewrite rerun_blank_session.
Qed.

(** C8 (amended): no run changes or removes an entry already stored;
    an analysis appends exactly one entry; two analyses of the same text
    in a row append two entries with the same emotion, each dated with
    the day read in its own run.  The script puts no order on the two
    days: they are in order when the two readings of the clock are. *)
Theorem history_is_append_only journal today1 today2 (w : world) :
  ¬ blank journal →
  let w1 := rerun true journal today1 w in
  let w2 := rerun true journal today2 w1 in
  (∀ analyze_btn journal' today',
     App.entries w
       `prefix_of` App.entries (rerun analyze_btn journal' today' w))
  ∧ App.entries w1 = App.entries w ++ [recorded today1 journal]
  ∧ ∃ e1 e2,
      App.entries w2 = App.entries w ++ [e1; e2]
      ∧ emotion e1 = emotion e2
      ∧ date e1 = today1 ∧ date e2 = today2
      ∧ entry e1 = journal ∧ entry e2 = journal
      ∧ ((today1 ≤ today2)%Z → (date e1 ≤ date e2)%Z).
Proof.
  intros Hb w1 w2. subst w1 w2. split; [|split].
  - intros analyze_btn journal' today'.
    destruct (rerun_entries analyze_btn journal' today' w) as [-> | ->].
    + done.
    + by apply prefix_app_r.
  - by apply rerun_analysis_entries.
  - exists (recorded today1 journal), (recorded today2 journal).
    rewrite !rerun_analysis_entries by done.
    by rewrite <- app_assoc.
Qed.

End script_facts.

(** ** The handler on concrete sessions *)

Lemma not_blank_example : ¬ blank (str "I feel great").
Proof. apply (bool_decide_unpack _). vm_compute. exact I. Qed.

Lemma name_model_in_table x : in_label_table (name_model x).
Proof. apply (bool_decide_unpack _). vm_compute. exact I. Qed.

(** The specification's second scenario: only stop words and
    punctuation. *)
Example stop_words_only :
  ¬ blank (str "the, and, is!")
  ∧ TextProcessing.clean_text ascii_lower demo_stop_words
      (str "the, and, is!") = [].
Proof.
  split; [|vm_compute; reflexivity].
  apply (bool_decide_unpack _). vm_compute. exact I.
Qed.

Example normalize_empty :
  TextProcessing.clean_text ascii_lower demo_stop_words (str "") = str "".
Proof. vm_compute. reflexivity. Qed.

Example normalize_the_the_the :
  TextProcessing.clean_text ascii_lower demo_stop_words (str "The The the")
  = str "".
Proof. vm_compute. reflexivity. Qed.

Lemma prediction_is_the_label_witness :
  ¬ blank (str "I feel great")
  ∧ let prediction :=
      name_model
        (id_vectorizer
           (App.clean_text ascii_lower demo_stop_words (str "I feel great")))
    in
    let w' := (demo_handler name_model true (str "I feel great") day1
                 new_session).2 in
    (∃ draws,
       App.trace w'
       = App.trace new_session
         ++ [ App.Draw (st_spinner (str "🧠 Reading between the lines..."));
              App.Transform
                [App.clean_text ascii_lower demo_stop_words
                   (str "I feel great")];
              App.Predict
                [id_vectorizer
                   (App.clean_text ascii_lower demo_stop_words
                      (str "I feel great"))] ]
         ++ (App.Draw <$> draws))
    ∧ App.entries w'
      = App.entries new_session
        ++ [{| date := day1; entry := str "I feel great";
               emotion := prediction |}]
    ∧ (∀ c, App.emotion_card ascii_upper prediction = Ok c →
            App.Draw (st_markdown c) ∈ App.trace w').
Proof.
  split; [exact not_blank_example|].
  exact (prediction_is_the_label ascii_lower ascii_upper demo_stop_words
           pystr id_vectorizer name_model (str "I feel great") day1
           new_session not_blank_example).
Defined.

(** C1, as stated, fails: a classifier fitted on class indices answers
    17, and 17 itself is stored; the name [label_map] gives for 17 is
    not. The run then stops in [emotion_card], which needs a string. *)
Lemma index_is_stored_unresolved :
  let run := demo_handler index_model true (str "I feel great") day1
               new_session in
  App.entries run.2
  = [{| date := day1; entry := str "I feel great"; emotion := PyInt 17 |}]
  ∧ getitem label_map 17 = Ok (str "joy")
  ∧ emotion <$> App.entries run.2 ≠ [PyStr (str "joy")]
  ∧ run.1 = Raise (AttributeError (str "upper")).
Proof.
  cbv zeta.
  assert (App.entries
            (demo_handler index_model true (str "I feel great") day1
               new_session).2
          = [{| date := day1; entry := str "I feel great";
                emotion := PyInt 17 |}]) as E
    by (vm_compute; reflexivity).
  rewrite E. split; [done|].
  split; [vm_compute; reflexivity|].
  split; [discriminate|]. vm_compute. reflexivity.
Qed.

Lemma history_holds_predictions_witness :
  let w := demo_rerun name_model true (str "I feel great") day1 new_session in
  demo_reachable name_model w
  ∧ Forall
      (λ e, emotion e
            = name_model
                (id_vectorizer
                   (App.clean_text ascii_lower demo_stop_words (entry e))))
      (App.entries w)
  ∧ ((∀ x, in_label_table (name_model x)) →
     Forall (λ e, in_label_table (emotion e)) (App.entries w)).
Proof.
  assert (demo_reachable name_model
            (demo_rerun name_model true (str "I feel great") day1 new_session))
    as Hw by apply App.reachable_rerun, App.reachable_fresh.
  split; [exact Hw|].
  exact (history_holds_predictions ascii_lower ascii_upper demo_stop_words
           pystr id_vectorizer name_model _ Hw).
Defined.

(** C5, as stated, fails: the class index 17, which is within [0,27],
    is stored as the emotion, and 17 is not a value of [label_map]. *)
Lemma index_breaks_label_invariant :
  let w := demo_rerun index_model true (str "I feel great") day1 new_session in
  demo_reachable index_model w
  ∧ App.entries w
    = [{| date := day1; entry := str "I feel great"; emotion := PyInt 17 |}]
  ∧ ¬ Forall (λ e, in_label_table (emotion e)) (App.entries w).
Proof.
  cbv zeta.
  assert (App.entries
            (demo_rerun index_model true (str "I feel great") day1 new_session)
          = [{| date := day1; entry := str "I feel great";
                emotion := PyInt 17 |}]) as E
    by (vm_compute; reflexivity).
  split; [apply App.reachable_rerun, App.reachable_fresh|].
  split; [exact E|]. rewrite E. intros H.
  apply Forall_cons in H as [H _]. exact H.
Qed.

Lemma history_is_append_only_witness :
  ¬ blank (str "I feel great")
  ∧ let w1 := demo_rerun name_model true (str "I feel great") day1
                new_session in
    let w2 := demo_rerun name_model true (str "I feel great") day2 w1 in
    (∀ analyze_btn journal' today',
       App.entries new_session
         `prefix_of`
         App.entries (demo_rerun name_model analyze_btn journal' today'
                        new_session))
    ∧ App.entries w1
      = App.entries new_session
        ++ [{| date := day1; entry := str "I feel great";
               emotion :=
                 name_model
                   (id_vectorizer
                      (App.clean_text ascii_lower demo_stop_words
                         (str "I feel great"))) |}]
    ∧ ∃ e1 e2,
        App.entries w2 = App.entries new_session ++ [e1; e2]
        ∧ emotion e1 = emotion e2
        ∧ date e1 = day1 ∧ date e2 = day2
        ∧ entry e1 = str "I feel great" ∧ entry e2 = str "I feel great"
        ∧ ((day1 ≤ day2)%Z → (date e1 ≤ date e2)%Z).
Proof.
  split; [exact not_blank_example|].
  exact (history_is_append_only ascii_lower ascii_upper demo_stop_words
           pystr id_vectorizer name_model (str "I feel great") day1 day2
           new_session not_blank_example).
Defined.

(** C8, as stated, fails on the order of the dates: each entry takes
    the day the clock gives in its own run, so when the clock is set
    back between two analyses of the same text the later entry carries
    the earlier day. *)
Lemma dates_follow_the_clock_backwards :
  let w1 := demo_rerun name_model true (str "I feel great") day2
              new_session in
  let w2 := demo_rerun name_model true (str "I feel great") day1 w1 in
  demo_reachable name_model w2
  ∧ App.entries w2
    = [{| date := day2; entry := str "I feel great";
          emotion := PyStr (str "joy") |};
       {| date := day1; entry := str "I feel great";
          emotion := PyStr (str "joy") |}]
  ∧ date <$> App.entries w2 = [day2; day1]
  ∧ ¬ (day2 ≤ day1)%Z.
Proof.
  cbv zeta.
  assert (App.entries
            (demo_rerun name_model true (str "I feel great") day1
               (demo_rerun name_model true (str "I feel great") day2
                  new_session))
          = [{| date := day2; entry := str "I feel great";
                emotion := PyStr (str "joy") |};
             {| date := day1; entry := str "I feel great";
                emotion := PyStr (str "joy") |}]) as E
    by (vm_compute; reflexivity).
  split; [do 2 apply App.reachable_rerun; apply App.reachable_fresh|].
  split; [exact E|]. rewrite E. split; [reflexivity|].
  unfold day1, day2. lia.
Qed.

(** * Further properties *)

(** ** The normaliser, token by token *)

Lemma split_scan_nonspace w s :
  Forall (λ c, isspace c = false) w →
  Forall (λ tok, tok ≠ [] ∧ Forall (λ c, isspace c = false) tok)
    (split_scan w s).
Proof.
  revert w. induction s as [|c rest IH]; intros w Hw; simpl.
  - destruct w; [constructor|]. constructor; [by split | constructor].
  - destruct (isspace c) eqn:Ec.
    + destruct w as [|x w'].
      * by apply IH.
      * constructor; [by split|]. by apply IH.
    + apply IH, Forall_app. split; [done|]. by repeat constructor.
Qed.

Lemma split_join_nonspace ws :
  Forall (λ tok, tok ≠ [] ∧ Forall (λ c, isspace c = false) tok) ws →
  split (join (str " ") ws) = ws.
Proof.
  unfold split. induction 1 as [|w ws [Hne Hsp] Hws IH]; [done|].
  destruct ws as [|w2 ws].
  - simpl. rewrite <- (app_nil_r w) at 1.
    rewrite split_scan_app, app_nil_l by done. simpl. by destruct w.
  - change (split_scan [] (w ++ SPACE :: join (str " ") (w2 :: ws))
            = w :: w2 :: ws).
    set (J := join (str " ") (w2 :: ws)) in *. clearbody J.
    rewrite split_scan_app, app_nil_l by done.
    change (split_scan w (SPACE :: J))
      with (match w with
            | [] => split_scan [] J
            | _ :: _ => w :: split_scan [] J
            end).
    rewrite IH. by destruct w.
Qed.

Lemma filtered_nonspace lower stop_words t :
  Forall (λ tok, tok ≠ [] ∧ Forall (λ c, isspace c = false) tok)
    (filtered lower stop_words t).
Proof.
  unfold filtered. apply Forall_forall. intros w Hw.
  apply list_elem_of_filter in Hw as [_ Hw]. revert w Hw. apply Forall_forall.
  apply split_scan_nonspace. constructor.
Qed.

Lemma join_nil ws :
  Forall (λ tok : pystr, tok ≠ []) ws → join (str " ") ws = [] → ws = [].
Proof.
  destruct 1 as [|w ws Hw Hws]; [done|]. intros E.
  destruct ws as [|w2 ws]; [done|].
  change (w ++ SPACE :: join (str " ") (w2 :: ws) = []) in E.
  by destruct w.
Qed.

(** X1: splitting the output of [clean_text] again gives back the list
    [filtered] it was joined from: the tokens that survived, in their
    order and with their repetitions. *)
Theorem clean_text_tokens lower stop_words t :
  split (TextProcessing.clean_text lower stop_words t)
  = filtered lower stop_words t.
Proof.
  rewrite clean_text_filtered. apply split_join_nonspace, filtered_nonspace.
Qed.

(** X2: the output of [clean_text] is the empty string exactly when
    every token of the text, after lowercasing and deleting, is a stop
    word (in particular when there is no token at all). *)
Theorem clean_text_empty_iff lower stop_words t :
  TextProcessing.clean_text lower stop_words t = []
  ↔ Forall (λ w, w ∈ stop_words)
      (split (re_sub_delete TextProcessing.not_letter_or_space (lower t))).
Proof.
  rewrite clean_text_filtered. split.
  - intros E. apply join_nil in E.
    + unfold filtered in E. apply Forall_forall. intros w Hw.
      destruct (decide (w ∈ stop_words)) as [|Hn]; [done|].
      assert (w ∈ filter (λ word, word ∉ stop_words)
                (split (re_sub_delete TextProcessing.not_letter_or_space
                          (lower t)))) as Hin
        by by apply list_elem_of_filter.
      rewrite E in Hin. by apply elem_of_nil in Hin.
    + eapply Forall_impl; [apply filtered_nonspace|]. by intros w [? _].
  - intros Hall. unfold filtered.
    assert (filter (λ word, word ∉ stop_words)
              (split (re_sub_delete TextProcessing.not_letter_or_space
                        (lower t))) = []) as ->; [|done].
    induction Hall as [|w ws Hw _ IH]; [done|].
    rewrite filter_cons_False; [done|]. by intros Hn.
Qed.

Lemma tokens_are_az_words lower t :
  lower_leaves_no_AZ lower →
  Forall az_word
    (split (re_sub_delete TextProcessing.not_letter_or_space (lower t))).
Proof.
  intros Hlower. apply split_scan_words; [constructor|].
  apply re_sub_delete_chars, Forall_forall. intros c. apply Hlower.
Qed.

(** X3: only the stop words made of [a]..[z] have any effect.  Two
    stop-word sets that hold the same such words give the same output
    on every text, so an entry like ["don't"] or ["The"] never removes
    anything. *)
Theorem only_az_stop_words_matter lower stop_words stop_words' t :
  lower_leaves_no_AZ lower →
  (∀ w, az_word w → (w ∈ stop_words ↔ w ∈ stop_words')) →
  TextProcessing.clean_text lower stop_words t
  = TextProcessing.clean_text lower stop_words' t.
Proof.
  intros Hlower Hsame. unfold TextProcessing.clean_text. f_equal.
  induction (tokens_are_az_words lower t Hlower) as [|w ws Hw _ IH]; [done|].
  rewrite !filter_cons, IH.
  destruct (decide (w ∉ stop_words)) as [H1|H1],
           (decide (w ∉ stop_words')) as [H2|H2]; try done.
  - exfalso. apply H2. intros Hin. apply H1. by apply Hsame.
  - exfalso. apply H1. intros Hin. apply H2. by apply Hsame.
Qed.

Lemma contraction_stop_words_same w :
  az_word w → (w ∈ demo_stop_words ↔ w ∈ contraction_stop_words).
Proof.
  intros [_ Hw]. unfold contraction_stop_words.
  rewrite !elem_of_union, !elem_of_singleton. split; [by left|].
  intros [H | [-> | ->]]; [done| |]; exfalso; revert Hw;
    apply (bool_decide_unpack _); vm_compute; exact I.
Qed.

Lemma only_az_stop_words_matter_witness :
  lower_leaves_no_AZ ascii_lower
  ∧ (∀ w, az_word w → (w ∈ demo_stop_words ↔ w ∈ contraction_stop_words))
  ∧ TextProcessing.clean_text ascii_lower demo_stop_words
      (str "The cat don't care")
    = TextProcessing.clean_text ascii_lower contraction_stop_words
        (str "The cat don't care").
Proof.
  split; [exact ascii_lower_leaves_no_AZ|].
  split; [exact contraction_stop_words_same|].
  exact (only_az_stop_words_matter ascii_lower demo_stop_words
           contraction_stop_words _ ascii_lower_leaves_no_AZ
           contraction_stop_words_same).
Defined.

Example dont_survives :
  TextProcessing.clean_text ascii_lower contraction_stop_words
    (str "The cat don't care") = str "cat dont care".
Proof. vm_compute. reflexivity. Qed.

Lemma re_sub_delete_no_letters s :
  Forall (λ c, is_az c = false ∧ is_AZ c = false) s →
  blank (re_sub_delete TextProcessing.not_letter_or_space s).
Proof.
  induction 1 as [|c rest [Haz HAZ] _ IH]; simpl; [constructor|].
  unfold TextProcessing.not_letter_or_space at 1. rewrite Haz, HAZ. simpl.
  destruct (isspace c) eqn:Ec; simpl; [by constructor | done].
Qed.

Lemma split_blank s : blank s → split s = [].
Proof.
  unfold split. induction 1 as [|c rest Hc _ IH]; simpl; [done|].
  by rewrite Hc.
Qed.

(** X4: a text in which lowercasing leaves no letter [a]..[z] or
    [A]..[Z] (digits, punctuation, emoji, any other script) is cleaned
    to the empty string, whatever the stop words. *)
Theorem text_without_letters_is_emptied lower stop_words t :
  Forall (λ c, is_az c = false ∧ is_AZ c = false) (lower t) →
  TextProcessing.clean_text lower stop_words t = [].
Proof.
  intros Ht. unfold TextProcessing.clean_text.
  by rewrite (split_blank _ (re_sub_delete_no_letters _ Ht)).
Qed.

Lemma text_without_letters_is_emptied_witness :
  Forall (λ c, is_az c = false ∧ is_AZ c = false)
    (ascii_lower (str "मैं आज बहुत खुश हूँ 100% :-)"))
  ∧ TextProcessing.clean_text ascii_lower demo_stop_words
      (str "मैं आज बहुत खुश हूँ 100% :-)") = [].
Proof.
  assert (Forall (λ c, is_az c = false ∧ is_AZ c = false)
            (ascii_lower (str "मैं आज बहुत खुश हूँ 100% :-)"))) as Ht
    by (apply (bool_decide_unpack _); vm_compute; exact I).
  split; [exact Ht|].
  exact (text_without_letters_is_emptied ascii_lower demo_stop_words _ Ht).
Defined.

Lemma re_sub_delete_nonspace s :
  Forall (λ c, isspace c = false) s →
  Forall (λ c, isspace c = false)
    (re_sub_delete TextProcessing.not_letter_or_space s).
Proof.
  induction 1 as [|c rest Hc _ IH]; simpl; [constructor|].
  destruct (TextProcessing.not_letter_or_space c); [done | by constructor].
Qed.

(** X5: characters are deleted, not replaced by a space.  A text with
    no whitespace in it becomes one token, its letters put together
    (["don't"] gives ["dont"]), or nothing when no letter is left or
    when that token is a stop word. *)
Theorem text_without_whitespace_is_glued lower stop_words t :
  Forall (λ c, isspace c = false) (lower t) →
  let glued :=
    re_sub_delete TextProcessing.not_letter_or_space (lower t) in
  TextProcessing.clean_text lower stop_words t
  = if decide (glued = [] ∨ glued ∈ stop_words) then [] else glued.
Proof.
  intros Ht glued. unfold TextProcessing.clean_text. fold glued.
  pose proof (re_sub_delete_nonspace _ Ht) as Hg. fold glued in Hg.
  clearbody glued. unfold split.
  rewrite <- (app_nil_r glued) at 1.
  rewrite split_scan_app, app_nil_l by done. simpl.
  destruct glued as [|c g].
  - by rewrite decide_True by by left.
  - rewrite filter_cons, filter_nil.
    destruct (decide (c :: g ∉ stop_words)) as [Hn|Hn].
    + rewrite decide_False; [done|]. by intros [|].
    + rewrite decide_True; [done|]. right.
      by destruct (decide (c :: g ∈ stop_words)).
Qed.

Lemma text_without_whitespace_is_glued_witness :
  Forall (λ c, isspace c = false) (ascii_lower (str "Don't"))
  ∧ let glued :=
      re_sub_delete TextProcessing.not_letter_or_space
        (ascii_lower (str "Don't")) in
    TextProcessing.clean_text ascii_lower demo_stop_words (str "Don't")
    = if decide (glued = [] ∨ glued ∈ demo_stop_words) then [] else glued.
Proof.
  assert (Forall (λ c, isspace c = false) (ascii_lower (str "Don't"))) as Ht
    by (apply (bool_decide_unpack _); vm_compute; exact I).
  split; [exact Ht|].
  exact (text_without_whitespace_is_glued ascii_lower demo_stop_words _ Ht).
Defined.

Example dont_is_glued :
  TextProcessing.clean_text ascii_lower demo_stop_words (str "Don't")
  = str "dont".
Proof. vm_compute. reflexivity. Qed.

(** ** The three tables against each other *)

(** X6: the 28 names of [label_map] are pairwise distinct: a name
    belongs to one index only. *)
Theorem label_map_injective i j name :
  label_map !! i = Some name → label_map !! j = Some name → i = j.
Proof.
  unfold label_map. intros Hi Hj.
  apply elem_of_list_to_map_2, list_elem_of_lookup in Hi as [n Hn].
  apply elem_of_list_to_map_2, list_elem_of_lookup in Hj as [m Hm].
  assert (NoDup label_values) as Hnodup
    by (apply (bool_decide_unpack _); vm_compute; exact I).
  assert (n = m) as ->.
  { apply (NoDup_lookup label_values n m name Hnodup);
      unfold label_values; rewrite list_lookup_fmap.
    - by rewrite Hn.
    - by rewrite Hm. }
  congruence.
Qed.

Lemma label_map_injective_witness :
  label_map !! 17%Z = Some (str "joy")
  ∧ label_map !! 17%Z = Some (str "joy")
  ∧ 17%Z = 17%Z.
Proof.
  assert (label_map !! 17%Z = Some (str "joy")) as H
    by (vm_compute; reflexivity).
  split; [exact H|]. split; [exact H|].
  exact (label_map_injective 17 17 (str "joy") H H).
Defined.

(** X7: every emotion that has a colour in [EMOTION_COLORS] and every
    emotion that has a tip in [TIPS] is one of the 28 names of
    [label_map]. *)
Theorem colours_and_tips_name_labels k :
  (is_Some (EMOTION_COLORS !! k) → k ∈ label_values)
  ∧ (is_Some (App.TIPS !! k) → k ∈ label_values).
Proof.
  split; intros [v Hv]; apply elem_of_list_to_map_2 in Hv;
    match type of Hv with
    | _ ∈ ?l =>
      assert (Forall (λ kv : pystr * pystr, kv.1 ∈ label_values) l) as Hall
        by (apply (bool_decide_unpack _); vm_compute; exact I)
    end;
    exact (proj1 (Forall_forall _ _) Hall (k, v) Hv).
Qed.

(** ** How a run ends *)

Section run_endings.

Context (lower upper : pystr → pystr) (stop_words : gset pystr).
Context (FeatureVector : Type).
Context (vectorizer : pystr → FeatureVector).
Context (model : FeatureVector → pyval).

Abbreviation world := (App.world FeatureVector).
Abbreviation clean_text := (App.clean_text lower stop_words).
Abbreviation handler :=
  (App.handler lower upper stop_words FeatureVector vectorizer model).
Abbreviation main :=
  (App.main lower upper stop_words FeatureVector vectorizer model).
Abbreviation rerun :=
  (App.rerun lower upper stop_words FeatureVector vectorizer model).
Abbreviation reachable :=
  (App.reachable lower upper stop_words FeatureVector vectorizer model).
Abbreviation inference journal :=
  [ App.Draw (st_spinner (str "🧠 Reading between the lines..."));
    App.Transform [clean_text journal];
    App.Predict [vectorizer (clean_text journal)] ].
Abbreviation crisis_link :=
  (App.Draw
     (st_link_button (str "📞 Crisis Resources")
        (str "https://www.thelivelovelaughfoundation.org/find-help/helplines"))).

(** X8: when the classifier's prediction is not a string, the run
    stores the entry, announces success, and only then raises
    [AttributeError] in [emotion_card]: no card, no tip, no chart is
    drawn in that run, and the entry stays in the history. *)
Theorem stored_before_the_card_fails journal today i (w : world) :
  ¬ blank journal →
  model (vectorizer (clean_text journal)) = PyInt i →
  main true journal today w
  = (Raise (AttributeError (str "upper")),
     {| App.session :=
          {| history :=
               Some (App.entries w
                     ++ [{| date := today; entry := journal;
                            emotion := PyInt i |}]) |};
        App.trace :=
          App.trace w ++ inference journal
          ++ [App.Draw (st_success (str "✅ Analysis complete!"));
              App.Draw st_balloons] |}).
Proof.
  intros Hb Hi. unfold App.main. unfold mbind at 1.
  unfold App.script_bind at 1.
  rewrite (handler_analysis _ _ _ _ _ _ _ _ _ Hb). cbv zeta. rewrite Hi.
  change (App.emotion_card upper (PyInt i))
    with (@Raise card (AttributeError (str "upper"))).
  reflexivity.
Qed.

(** X9: an analysis whose prediction is a string returns normally, and
    it draws the crisis-resources link exactly when that string is
    ['sadness'], ['grief'], ['anger'] or ['despair']. *)
Theorem crisis_link_iff journal today s (w : world) :
  ¬ blank journal →
  model (vectorizer (clean_text journal)) = PyStr s →
  ∃ events,
    handler true journal today w
    = (Ok (),
       {| App.session :=
            {| history :=
                 Some (App.entries w
                       ++ [{| date := today; entry := journal;
                              emotion := PyStr s |}]) |};
          App.trace := App.trace w ++ events |})
    ∧ (crisis_link ∈ events
       ↔ s ∈ [str "sadness"; str "grief"; str "anger"; str "despair"]).
Proof.
  intros Hb Hs. rewrite (handler_analysis _ _ _ _ _ _ _ _ _ Hb). cbv zeta.
  rewrite Hs.
  change (App.emotion_card upper (PyStr s))
    with (Ok {| background :=
                  dict_get EMOTION_COLORS (PyStr s) (str "#073B4C");
                heading := upper s |}).
  cbn [App.session App.trace].
  eexists. split.
  { rewrite <- !app_assoc. reflexivity. }
  assert (PyStr s ∈ App.crisis_emotions
          ↔ s ∈ [str "sadness"; str "grief"; str "anger"; str "despair"])
    as Hcrisis.
  { unfold App.crisis_emotions. rewrite list_elem_of_fmap. split.
    - by intros (x & [= ->] & Hx).
    - intros Hx. by exists s. }
  rewrite <- Hcrisis.
  rewrite !elem_of_app, !elem_of_cons.
  destruct (bool_decide_reflect (PyStr s ∈ App.crisis_emotions)) as [Hc|Hc].
  - split; [done|]. intros _. do 3 right. rewrite elem_of_cons. by left.
  - split; [|done]. rewrite !elem_of_nil. intuition discriminate.
Qed.

Lemma handler_string_prediction journal today s (w : world) :
  ¬ blank journal →
  model (vectorizer (clean_text journal)) = PyStr s →
  ∃ events,
    handler true journal today w
    = (Ok (),
       {| App.session :=
            {| history :=
                 Some (App.entries w
                       ++ [{| date := today; entry := journal;
                              emotion := PyStr s |}]) |};
          App.trace := App.trace w ++ events |}).
Proof.
  intros Hb Hs. rewrite (handler_analysis _ _ _ _ _ _ _ _ _ Hb). cbv zeta.
  rewrite Hs.
  change (App.emotion_card upper (PyStr s))
    with (Ok {| background :=
                  dict_get EMOTION_COLORS (PyStr s) (str "#073B4C");
                heading := upper s |}).
  cbn [App.session App.trace].
  eexists. rewrite <- !app_assoc. reflexivity.
Qed.

(** X10: an analysis whose prediction is a string ends by drawing the
    history charts, over every entry stored so far and the one this run
    has just appended. *)
Theorem charts_close_the_run journal today s (w : world) :
  ¬ blank journal →
  model (vectorizer (clean_text journal)) = PyStr s →
  ∃ events,
    main true journal today w
    = (Ok (),
       {| App.session :=
            {| history :=
                 Some (App.entries w
                       ++ [{| date := today; entry := journal;
                              emotion := PyStr s |}]) |};
          App.trace :=
            App.trace w ++ events
            ++ [App.Draw
                  (st_history_charts
                     (App.entries w
                      ++ [{| date := today; entry := journal;
                             emotion := PyStr s |}]))] |}).
Proof.
  intros Hb Hs.
  destruct (handler_string_prediction journal today s w Hb Hs)
    as [events Hrun].
  exists events. unfold App.main. unfold mbind at 1.
  unfold App.script_bind at 1. rewrite Hrun.
  unfold App.history_section, App.get_session, App.emit.
  unfold mbind, mret, App.script_bind, App.script_ret.
  cbn [App.session App.trace history].
  destruct (App.entries w
            ++ [{| date := today; entry := journal; emotion := PyStr s |}])
    as [|e es] eqn:E.
  - by destruct (App.entries w).
  - cbn [App.session App.trace]. by rewrite <- app_assoc.
Qed.

Lemma truthy_strip journal :
  truthy (strip journal) = true ↔ ¬ blank journal.
Proof.
  split.
  - intros Ht Hb. by rewrite (strip_blank _ Hb) in Ht.
  - apply strip_not_blank.
Qed.

Lemma rerun_entries_if analyze_btn journal today (w : world) :
  App.entries (rerun analyze_btn journal today w)
  = App.entries w
    ++ (if analyze_btn && truthy (strip journal) then
          [{| date := today; entry := journal;
              emotion := model (vectorizer (clean_text journal)) |}]
        else []).
Proof.
  destruct analyze_btn; simpl.
  - destruct (truthy (strip journal)) eqn:Et.
    + apply rerun_analysis_entries. by apply truthy_strip.
    + rewrite app_nil_r. unfold App.entries.
      rewrite rerun_blank_session; [done|].
      destruct (decide (Forall (λ c, isspace c = true) journal)) as [Hb|Hb];
        [done|].
      apply truthy_strip in Hb. congruence.
  - rewrite app_nil_r. unfold App.entries. by rewrite rerun_idle_session.
Qed.

(** X11: in every state a session can reach, ['history'] is either
    absent from the session state or holds at least one entry: it is
    created only by the run that appends to it. *)
Theorem history_is_never_empty (w : world) :
  reachable w → history (App.session w) ≠ Some [].
Proof.
  induction 1 as [|analyze_btn journal today w Hw IH]; [done|].
  rewrite rerun_session. destruct analyze_btn; [|done].
  destruct (decide (Forall (λ c, isspace c = true) journal)) as [Hb|Hb].
  - by rewrite (handler_blank _ _ _ _ _ _ _ _ _ Hb).
  - rewrite (handler_analysis_session _ _ _ _ _ _ _ _ _ Hb).
    intros [= E]. by destruct (App.entries w).
Qed.

(** X12: after any sequence of runs the history is what it was before,
    followed by one entry for each run in which the button was pressed
    on a text that is not blank, in the order of the runs; the other
    runs leave no trace in it. *)
Theorem history_is_the_log_of_analyses subs (w : world) :
  App.entries
    (Session.reruns lower upper stop_words FeatureVector vectorizer model
       subs w)
  = App.entries w
    ++ (Session.entry_of lower stop_words FeatureVector vectorizer model
          <$> filter (λ s, Session.analysed s) subs).
Proof.
  revert w. induction subs as [|s subs IH]; intros w.
  - by rewrite filter_nil, app_nil_r.
  - change (Session.reruns lower upper stop_words FeatureVector vectorizer
              model (s :: subs) w)
      with (Session.reruns lower upper stop_words FeatureVector vectorizer
              model subs
              (rerun (Session.sub_analyze_btn s) (Session.sub_journal s)
                 (Session.sub_today s) w)).
    rewrite IH, rerun_entries_if, filter_cons.
    change (Session.sub_analyze_btn s
            && truthy (strip (Session.sub_journal s)))
      with (Session.analysed s).
    destruct (decide (Is_true (Session.analysed s))) as [Ha|Ha].
    + apply Is_true_true in Ha. rewrite Ha, fmap_cons, <- app_assoc.
      reflexivity.
    + apply Is_true_false in Ha. by rewrite Ha, app_nil_r.
Qed.

End run_endings.

Lemma stored_before_the_card_fails_witness :
  ¬ blank (str "I feel great")
  ∧ index_model
      (id_vectorizer
         (App.clean_text ascii_lower demo_stop_words (str "I feel great")))
    = PyInt 17
  ∧ App.main ascii_lower ascii_upper demo_stop_words pystr id_vectorizer
      index_model true (str "I feel great") day1 new_session
    = (Raise (AttributeError (str "upper")),
       {| App.session :=
            {| history :=
                 Some (App.entries new_session
                       ++ [{| date := day1; entry := str "I feel great";
                              emotion := PyInt 17 |}]) |};
          App.trace :=
            App.trace new_session
            ++ [ App.Draw (st_spinner (str "🧠 Reading between the lines..."));
                 App.Transform
                   [App.clean_text ascii_lower demo_stop_words
                      (str "I feel great")];
                 App.Predict
                   [id_vectorizer
                      (App.clean_text ascii_lower demo_stop_words
                         (str "I feel great"))] ]
            ++ [App.Draw (st_success (str "✅ Analysis complete!"));
                App.Draw st_balloons] |}).
Proof.
  split; [exact not_blank_example|]. split; [reflexivity|].
  exact (stored_before_the_card_fails ascii_lower ascii_upper
           demo_stop_words pystr id_vectorizer index_model
           (str "I feel great") day1 17 new_session not_blank_example
           eq_refl).
Defined.

Lemma crisis_link_iff_witness :
  ¬ blank (str "I feel great")
  ∧ sad_model
      (id_vectorizer
         (App.clean_text ascii_lower demo_stop_words (str "I feel great")))
    = PyStr (str "sadness")
  ∧ ∃ events,
      demo_handler sad_model true (str "I feel great") day1 new_session
      = (Ok (),
         {| App.session :=
              {| history :=
                   Some (App.entries new_session
                         ++ [{| date := day1; entry := str "I feel great";
                                emotion := PyStr (str "sadness") |}]) |};
            App.trace := App.trace new_session ++ events |})
      ∧ (App.Draw
           (st_link_button (str "📞 Crisis Resources")
              (str "https://www.thelivelovelaughfoundation.org/find-help/helplines"))
           ∈ events
         ↔ str "sadness"
           ∈ [str "sadness"; str "grief"; str "anger"; str "despair"]).
Proof.
  split; [exact not_blank_example|]. split; [reflexivity|].
  exact (crisis_link_iff ascii_lower ascii_upper demo_stop_words pystr
           id_vectorizer sad_model (str "I feel great") day1
           (str "sadness") new_session not_blank_example eq_refl).
Defined.

Lemma charts_close_the_run_witness :
  ¬ blank (str "I feel great")
  ∧ name_model
      (id_vectorizer
         (App.clean_text ascii_lower demo_stop_words (str "I feel great")))
    = PyStr (str "joy")
  ∧ ∃ events,
      App.main ascii_lower ascii_upper demo_stop_words pystr id_vectorizer
        name_model true (str "I feel great") day1 new_session
      = (Ok (),
         {| App.session :=
              {| history :=
                   Some (App.entries new_session
                         ++ [{| date := day1; entry := str "I feel great";
                                emotion := PyStr (str "joy") |}]) |};
            App.trace :=
              App.trace new_session ++ events
              ++ [App.Draw
                    (st_history_charts
                       (App.entries new_session
                        ++ [{| date := day1; entry := str "I feel great";
                               emotion := PyStr (str "joy") |}]))] |}).
Proof.
  split; [exact not_blank_example|]. split; [reflexivity|].
  exact (charts_close_the_run ascii_lower ascii_upper demo_stop_words pystr
           id_vectorizer name_model (str "I feel great") day1 (str "joy")
           new_session not_blank_example eq_refl).
Defined.

Lemma history_is_never_empty_witness :
  let w := demo_rerun name_model true (str "I feel great") day1
             new_session in
  demo_reachable name_model w ∧ history (App.session w) ≠ Some [].
Proof.
  assert (demo_reachable name_model
            (demo_rerun name_model true (str "I feel great") day1
               new_session)) as Hw
    by apply App.reachable_rerun, App.reachable_fresh.
  split; [exact Hw|].
  exact (history_is_never_empty ascii_lower ascii_upper demo_stop_words
           pystr id_vectorizer name_model _ Hw).
Defined.

(** ** The header animation *)

(** X13: [load_lottie] never raises, and the header shows the
    animation only when the request returned status 200 with a body
    that is JSON and truthy; when the request raised, answered another
    status, or sent a body that is not JSON or is falsy, the header
    shows the placeholder image. *)
Theorem header_animation_or_image
    (json : Type) (truthy_json : json → bool)
    (requests_get : pystr → Lottie.attempt (Lottie.response json)) :
  let url :=
    str "https://assets1.lottiefiles.com/packages/lf20_vyL7qy.json" in
  let shown :=
    Lottie.header json truthy_json
      (Lottie.lottie_celebrate json requests_get) in
  (∀ r a,
     requests_get url = Lottie.Returned r →
     Lottie.status_code json r = 200%Z →
     Lottie.json_body json r = Lottie.Returned a →
     truthy_json a = true →
     head shown = Some (Lottie.st_lottie json a 120 (str "header-animation")))
  ∧ ((∀ r a,
        requests_get url = Lottie.Returned r →
        Lottie.status_code json r = 200%Z →
        Lottie.json_body json r = Lottie.Returned a →
        truthy_json a = false) →
     head shown
     = Some (Lottie.st_image
               (str "https://cdn-icons-png.flaticon.com/512/1995/1995485.png")
               100)).
Proof.
  intros url shown. subst shown.
  unfold Lottie.lottie_celebrate, Lottie.load_lottie, Lottie.header.
  fold url. cbv zeta. split.
  - intros r a -> Hs -> Ht. apply Z.eqb_eq in Hs. by rewrite Hs, Ht.
  - intros Hfalsy. destruct (requests_get url) as [r|]; [|done].
    destruct (Lottie.status_code json r =? 200)%Z eqn:Es; [|done].
    apply Z.eqb_eq in Es.
    destruct (Lottie.json_body json r) as [a|] eqn:Ea; [|done].
    by rewrite (Hfalsy r a eq_refl Es Ea).
Qed.

Example header_when_network_down :
  head (Lottie.header _ truthy_keys
          (Lottie.lottie_celebrate _ network_down))
  = Some (Lottie.st_image
            (str "https://cdn-icons-png.flaticon.com/512/1995/1995485.png")
            100).
Proof. reflexivity. Qed.

Example header_when_404 :
  head (Lottie.header _ truthy_keys
          (Lottie.lottie_celebrate _ network_404))
  = Some (Lottie.st_image
            (str "https://cdn-icons-png.flaticon.com/512/1995/1995485.png")
            100).
Proof. reflexivity. Qed.

Example header_when_network_up :
  head (Lottie.header _ truthy_keys
          (Lottie.lottie_celebrate _ network_up))
  = Some (Lottie.st_lottie _ [str "v"; str "layers"] 120
            (str "header-animation")).
Proof. reflexivity. Qed.

(** ** Texts the guard lets through and the normaliser empties *)

(** X14: a text that is not blank but in which lowercasing leaves no
    letter [a]..[z] or [A]..[Z] passes the guard and is analysed as the
    empty text: its entry holds the classifier's answer for the empty
    string, the same for all such texts. *)
Theorem text_without_letters_is_analysed_as_empty
    (lower upper : pystr → pystr) (stop_words : gset pystr)
    (FeatureVector : Type) (vectorizer : pystr → FeatureVector)
    (model : FeatureVector → pyval) journal today
    (w : App.world FeatureVector) :
  ¬ blank journal →
  Forall (λ c, is_az c = false ∧ is_AZ c = false) (lower journal) →
  App.entries
    (App.rerun lower upper stop_words FeatureVector vectorizer model true
       journal today w)
  = App.entries w
    ++ [{| date := today; entry := journal;
           emotion := model (vectorizer []) |}].
Proof.
  intros Hb Hj. rewrite (rerun_analysis_entries _ _ _ _ _ _ _ _ _ Hb).
  unfold App.clean_text, TextProcessing.clean_text.
  by rewrite (split_blank _ (re_sub_delete_no_letters _ Hj)).
Qed.

Lemma text_without_letters_is_analysed_as_empty_witness :
  ¬ blank (str "मैं आज बहुत खुश हूँ 100% :-)")
  ∧ Forall (λ c, is_az c = false ∧ is_AZ c = false)
      (ascii_lower (str "मैं आज बहुत खुश हूँ 100% :-)"))
  ∧ App.entries
      (demo_rerun name_model true (str "मैं आज बहुत खुश हूँ 100% :-)") day1
         new_session)
    = App.entries new_session
      ++ [{| date := day1; entry := str "मैं आज बहुत खुश हूँ 100% :-)";
             emotion := name_model (id_vectorizer []) |}].
Proof.
  assert (¬ blank (str "मैं आज बहुत खुश हूँ 100% :-)")) as Hb
    by (apply (bool_decide_unpack _); vm_compute; exact I).
  assert (Forall (λ c, is_az c = false ∧ is_AZ c = false)
            (ascii_lower (str "मैं आज बहुत खुश हूँ 100% :-)"))) as Hj
    by (apply (bool_decide_unpack _); vm_compute; exact I).
  split; [exact Hb|]. split; [exact Hj|].
  exact (text_without_letters_is_analysed_as_empty ascii_lower ascii_upper
           demo_stop_words pystr id_vectorizer name_model _ day1
           new_session Hb Hj).
Defined.
